(** * The storefront core of telegram_shop_bot.py

    A shallow embedding of the catalog / cart / order logic of
    [telegram_shop_bot.py] and of the handlers that drive it, followed by
    the properties of the cart/catalog/order state machine.

    Modelling conventions.
    - The SQLite file [shop.db] is the record [DB]: one list of rows per
      table, in rowid (insertion) order, plus the two [sqlite_sequence]
      counters that [AUTOINCREMENT] maintains.  A [SELECT] without
      [ORDER BY] is read in that order.  SQL leaves the order open (SQLite
      may read the lines of a user through the primary-key index instead);
      none of the properties below is about the order of a cart listing.
    - Python [int] and SQLite [INTEGER] values are [Z].  The embedding is
      the relational reading of the SQL text and agrees with SQLite as long
      as every integer bound to a statement or computed by [qty + ?] fits
      in 64 bits; beyond that ([OverflowError] on binding, promotion to
      REAL inside SQLite) lies outside of it.
    - Every [db_*] helper opens its own connection, runs its statements,
      commits and closes.  That is one unit of work: [with_connection].
      A storage failure ([sqlite3.OperationalError]) is drawn from the
      fault schedule of the [world]; a failed unit of work commits nothing.
    - Exceptions propagate as in Python: [bind] stops at the first [Raise].
    - [CURRENT_TIMESTAMP] reads the clock [now] of the world, in whole
      seconds (SQLite renders it as text with one-second resolution, whose
      lexicographic order is the chronological one).
    - Messages sent through the Telegram transport are the constructors of
      [reply]; sending is not modelled as fallible.
    - Which handler the transport library calls for an update is not
      modelled: [event] offers every handler, so what holds for every run of
      [run_events] holds for the runs the dispatcher allows. *)

From Stdlib Require Import ZArith String Ascii Lia.
From stdpp Require Import base option list gmap strings sorting.

Local Open Scope Z_scope.

(** ** Rows of the three tables *)

(** [products (id, title, description, price, image)] and the dictionaries
    built from its rows by [db_get_products] and [db_get_product]. *)
Record product := Product {
  p_id : Z;
  p_title : string;
  p_description : option string;
  p_price : Z;
  p_image : option string
}.

(** [carts (user_id, product_id, qty)], primary key [(user_id, product_id)]. *)
Record cart_row := CartRow {
  c_user_id : Z;
  c_product_id : Z;
  c_qty : Z
}.

(** One element of the JSON list stored in [orders.items]:
    [{'product_id', 'title', 'qty', 'price'}]. *)
Record order_item := OrderItem {
  i_product_id : Z;
  i_title : string;
  i_qty : Z;
  i_price : Z
}.

(** [orders (id, user_id, items, total, status, created_at)].  The [items]
    column holds [json.dumps] of the payload; the list itself stands for
    its (injective) serialisation. *)
Record order := Order {
  o_id : Z;
  o_user_id : Z;
  o_items : list order_item;
  o_total : Z;
  o_status : string;
  o_created_at : Z
}.

(** One element of the list returned by [db_get_cart]:
    [{"product": p, "qty": qty}]. *)
Record cart_item := CartItem {
  ci_product : product;
  ci_qty : Z
}.

Global Instance product_eq_dec : EqDecision product.
Proof. solve_decision. Defined.
Global Instance cart_row_eq_dec : EqDecision cart_row.
Proof. solve_decision. Defined.
Global Instance order_item_eq_dec : EqDecision order_item.
Proof. solve_decision. Defined.
Global Instance order_eq_dec : EqDecision order.
Proof. solve_decision. Defined.
Global Instance cart_item_eq_dec : EqDecision cart_item.
Proof. solve_decision. Defined.

(** ** The database *)

Record DB := MkDB {
  products : list product;
  products_seq : Z;          (* sqlite_sequence entry of [products] *)
  carts : list cart_row;
  orders : list order;
  orders_seq : Z             (* sqlite_sequence entry of [orders] *)
}.


Definition set_carts (cs : list cart_row) (d : DB) : DB :=
  {| products := products d; products_seq := products_seq d; carts := cs;
     orders := orders d; orders_seq := orders_seq d |}.

Definition PAGE_SIZE : Z := 6.

(** ** SQL building blocks *)

(** [ORDER BY key DESC]: rows with equal keys keep their scan order, as
    SQLite's sorter leaves them. *)
Fixpoint insert_desc {A} (key : A → Z) (x : A) (l : list A) : list A :=
  match l with
  | [] => [x]
  | y :: l' => if key y <=? key x then x :: l else y :: insert_desc key x l'
  end.

Definition order_by_desc {A} (key : A → Z) (l : list A) : list A :=
  foldr (insert_desc key) [] l.

(** [LIMIT lim OFFSET off]: a negative offset counts as zero, a negative
    limit as no limit. *)
Definition limit_offset {A} (lim off : Z) (l : list A) : list A :=
  let rest := drop (Z.to_nat off) l in
  if lim <? 0 then rest else take (Z.to_nat lim) rest.

(** The largest rowid of a table, 0 when it is empty. *)
Definition max_rowid (ids : list Z) : Z := foldr Z.max 0 ids.

(** The rowid [AUTOINCREMENT] hands out: one more than the largest rowid the
    table ever held. *)
Definition next_rowid (seq : Z) (ids : list Z) : Z :=
  Z.max seq (max_rowid ids) + 1.

(** [SELECT ... FROM products WHERE id = ?]; [fetchone]. *)
Definition sql_select_product (pid : Z) (d : DB) : option product :=
  head (filter (λ p, p_id p = pid) (products d)).

(** [INSERT INTO products (title, description, price, image)]; the second
    component is [cur.lastrowid]. *)
Definition sql_insert_product (title : string) (description : option string)
    (price : Z) (image : option string) (d : DB) : DB * Z :=
  let pid := next_rowid (products_seq d) (p_id <$> products d) in
  ({| products := products d ++ [Product pid title description price image];
      products_seq := pid; carts := carts d;
      orders := orders d; orders_seq := orders_seq d |}, pid).

(** The rows of [carts] with the given primary key. *)
Definition cart_key_is (user_id product_id : Z) (c : cart_row) : Prop :=
  c_user_id c = user_id ∧ c_product_id c = product_id.

Global Instance cart_key_is_dec u p c : Decision (cart_key_is u p c).
Proof. unfold cart_key_is. apply _. Defined.

(** [SELECT qty FROM carts WHERE user_id = ? AND product_id = ?];
    [fetchone]. *)
Definition sql_select_cart_qty (user_id product_id : Z) (d : DB) : option Z :=
  c_qty <$> head (filter (cart_key_is user_id product_id) (carts d)).

(** [SET qty = qty + ?] on one row, where the [WHERE] clause selects it. *)
Definition bump (qty user_id product_id : Z) (c : cart_row) : cart_row :=
  if decide (cart_key_is user_id product_id c)
  then CartRow (c_user_id c) (c_product_id c) (c_qty c + qty)
  else c.

(** [UPDATE carts SET qty = qty + ? WHERE user_id = ? AND product_id = ?]. *)
Definition sql_update_cart_qty (qty user_id product_id : Z) (d : DB) : DB :=
  set_carts (bump qty user_id product_id <$> carts d) d.

(** ** Exceptions and the handler monad *)

Inductive exn :=
| OperationalError   (* sqlite3: the storage failed *)
| IntegrityError     (* sqlite3: a constraint was violated *)
| ValueError         (* int() or tuple unpacking rejected its input *)
| IndexError         (* list index out of range *)
| AttributeError.    (* attribute access on None *)

Inductive result (A : Type) :=
| Ok (a : A)
| Raise (e : exn).
Arguments Ok {A} a.
Arguments Raise {A} e.

(** [INSERT INTO carts (user_id, product_id, qty)]; the primary key rejects
    a second row for the same pair. *)
Definition sql_insert_cart (user_id product_id qty : Z) (d : DB) : result DB :=
  match filter (cart_key_is user_id product_id) (carts d) with
  | [] => Ok (set_carts (carts d ++ [CartRow user_id product_id qty]) d)
  | _ :: _ => Raise IntegrityError
  end.

(** [SELECT product_id, qty FROM carts WHERE user_id = ?]; [fetchall]. *)
Definition sql_select_cart (user_id : Z) (d : DB) : list (Z * Z) :=
  (λ c, (c_product_id c, c_qty c)) <$> filter (λ c, c_user_id c = user_id) (carts d).

(** [DELETE FROM carts WHERE user_id = ?]. *)
Definition sql_delete_cart (user_id : Z) (d : DB) : DB :=
  set_carts (filter (λ c, c_user_id c ≠ user_id) (carts d)) d.

(** [DELETE FROM carts WHERE user_id = ? AND product_id = ?]. *)
Definition sql_delete_cart_row (user_id product_id : Z) (d : DB) : DB :=
  set_carts (filter (λ c, ¬ cart_key_is user_id product_id c) (carts d)) d.

(** [INSERT INTO orders (user_id, items, total)]: [status] and [created_at]
    take their column defaults. *)
Definition sql_insert_order (user_id : Z) (items : list order_item) (total : Z)
    (timestamp : Z) (d : DB) : DB * Z :=
  let oid := next_rowid (orders_seq d) (o_id <$> orders d) in
  ({| products := products d; products_seq := products_seq d; carts := carts d;
      orders := orders d ++ [Order oid user_id items total "new" timestamp];
      orders_seq := oid |}, oid).

(** [SELECT ... FROM orders ORDER BY created_at DESC]. *)
Definition sql_select_orders (d : DB) : list order :=
  order_by_desc o_created_at (orders d).

(** The state a handler runs in: the database file, the system clock, the
    outcomes of the coming connections and [context.user_data].

    [faults] lists, for each storage failure still to come, how many
    connections succeed before it; the empty schedule never fails.
    [user_data] maps a user id to the value stored under ['admin_adding']
    in that user's dictionary. *)
Record world := World {
  db : DB;
  now : Z;
  faults : list nat;
  user_data : gmap Z bool
}.

Definition M (A : Type) : Type := world → result A * world.

Definition ret {A} (a : A) : M A := λ w, (Ok a, w).

Definition bind {A B} (m : M A) (k : A → M B) : M B := λ w,
  match m w with
  | (Ok a, w') => k a w'
  | (Raise e, w') => (Raise e, w')
  end.

Notation "'let*' x ':=' m 'in' k" := (bind m (λ x, k))
  (at level 10, x name, m at level 100, k at level 200, only parsing).
Notation "'let*' ' pat ':=' m 'in' k" := (bind m (λ x, match x with pat => k end))
  (at level 10, pat pattern, m at level 100, k at level 200, only parsing).

Definition set_db (d : DB) (w : world) : world :=
  {| db := d; now := now w; faults := faults w; user_data := user_data w |}.

Definition set_faults (fs : list nat) (w : world) : world :=
  {| db := db w; now := now w; faults := fs; user_data := user_data w |}.

Definition set_user_data (ud : gmap Z bool) (w : world) : world :=
  {| db := db w; now := now w; faults := faults w; user_data := ud |}.

(** [sqlite3.connect] ... [conn.commit(); conn.close()] around [body].
    [body] receives the clock for [CURRENT_TIMESTAMP]. *)
Definition with_connection {A} (body : Z → DB → result (DB * A)) : M A := λ w,
  match faults w with
  | O :: fs => (Raise OperationalError, set_faults fs w)
  | fs =>
      let w1 := set_faults (match fs with S n :: fs' => n :: fs' | _ => [] end) w in
      match body (now w) (db w) with
      | Ok (d', a) => (Ok a, set_db d' w1)
      | Raise e => (Raise e, w1)
      end
  end.

Definition raise {A} (e : exn) : M A := λ w, (Raise e, w).

(** ** Database helpers *)

Definition db_get_products (page : Z) : M (list product) :=
  with_connection (λ _ d,
    Ok (d, limit_offset PAGE_SIZE (PAGE_SIZE * page)
             (order_by_desc p_id (products d)))).

Definition db_get_product (pid : Z) : M (option product) :=
  with_connection (λ _ d, Ok (d, sql_select_product pid d)).

Definition db_add_product (title : string) (description : option string)
    (price : Z) (image : option string) : M Z :=
  with_connection (λ _ d, Ok (sql_insert_product title description price image d)).

Definition db_add_to_cart (user_id product_id qty : Z) : M unit :=
  with_connection (λ _ d,
    match sql_select_cart_qty user_id product_id d with
    | Some _ => Ok (sql_update_cart_qty qty user_id product_id d, tt)
    | None =>
        match sql_insert_cart user_id product_id qty d with
        | Ok d' => Ok (d', tt)
        | Raise e => Raise e
        end
    end).

(** The [for pid, qty in rows] loop of [db_get_cart], with its two
    accumulators. *)
Fixpoint db_get_cart_loop (rows : list (Z * Z)) (items : list cart_item)
    (total : Z) : M (list cart_item * Z) :=
  match rows with
  | [] => ret (items, total)
  | (pid, qty) :: rows' =>
      let* p := db_get_product pid in
      match p with
      | None => db_get_cart_loop rows' items total
      | Some p =>
          db_get_cart_loop rows' (items ++ [CartItem p qty]) (total + p_price p * qty)
      end
  end.

Definition db_get_cart (user_id : Z) : M (list cart_item * Z) :=
  let* rows := with_connection (λ _ d, Ok (d, sql_select_cart user_id d)) in
  db_get_cart_loop rows [] 0.

Definition db_clear_cart (user_id : Z) : M unit :=
  with_connection (λ _ d, Ok (sql_delete_cart user_id d, tt)).

Definition db_create_order (user_id : Z) (items : list order_item) (total : Z) : M Z :=
  with_connection (λ timestamp d, Ok (sql_insert_order user_id items total timestamp d)).

Definition db_list_orders : M (list order) :=
  with_connection (λ _ d, Ok (d, sql_select_orders d)).

(** ** Handlers *)

(** What a handler sends back; the comment names the handler that sends it. *)
Inductive reply :=
| ReplyCatalogEmpty                       (* catalog: nothing on this page *)
| ReplyCatalog (ps : list product)        (* catalog: one card per product *)
| ReplyProductNotFound                    (* callback view_: no such product *)
| ReplyProductCard (p : product)          (* callback view_: the product *)
| ReplyAddedToCart                        (* callback add_ *)
| ReplyRemoved                            (* callback remove_ *)
| ReplyNone                               (* callback: only q.answer() *)
| ReplyCartHint                           (* view_cart: the cart is empty *)
| ReplyCart (items : list cart_item) (total : Z)   (* view_cart *)
| ReplyCartEmpty                          (* checkout: the cart is empty *)
| ReplyOrderCreated (oid total : Z)       (* checkout: order created *)
| ReplyAccessDenied                       (* admin commands: admins only *)
| ReplyAdminPrompt                        (* admin_add: send the product data *)
| ReplyBadFormat                          (* text: fewer than three fields *)
| ReplyPriceNotInteger                    (* text: int(price) failed *)
| ReplyProductAdded (pid : Z)             (* text: product stored *)
| ReplyUnknownCommand                     (* text: fallback *)
| ReplyNoOrders                           (* admin_list_orders: none *)
| ReplyOrders (rows : list order).        (* admin_list_orders: rows[:20] *)

(** The payload loop of [checkout_callback]. *)
Definition payload_item (it : cart_item) : order_item :=
  {| i_product_id := p_id (ci_product it);
     i_title := p_title (ci_product it);
     i_qty := ci_qty it;
     i_price := p_price (ci_product it) |}.

Definition view_cart (user_id : Z) : M reply :=
  let* '(items, total) := db_get_cart user_id in
  match items with
  | [] => ret ReplyCartHint
  | _ :: _ => ret (ReplyCart items total)
  end.

Definition checkout_callback (user_id : Z) : M reply :=
  let* '(items, total) := db_get_cart user_id in
  match items with
  | [] => ret ReplyCartEmpty
  | _ :: _ =>
      let payload_items := payload_item <$> items in
      let* oid := db_create_order user_id payload_items total in
      let* _ := db_clear_cart user_id in
      ret (ReplyOrderCreated oid total)
  end.

(** [str.split(sep)] for a one-character separator. *)
Fixpoint str_split (sep : ascii) (s : string) : list string :=
  match s with
  | EmptyString => [EmptyString]
  | String c s' =>
      if decide (c = sep) then EmptyString :: str_split sep s'
      else match str_split sep s' with
           | [] => [String c EmptyString]
           | x :: xs => String c x :: xs
           end
  end.

(** [str.split(sep, 1)]. *)
Fixpoint str_split1 (sep : ascii) (s : string) : list string :=
  match s with
  | EmptyString => [EmptyString]
  | String c s' =>
      if decide (c = sep) then [EmptyString; s']
      else match str_split1 sep s' with
           | [] => [String c EmptyString]
           | x :: xs => String c x :: xs
           end
  end.

Definition get_admin_adding (user_id : Z) : M bool := λ w,
  (Ok (bool_decide (user_data w !! user_id = Some true)), w).

Definition set_admin_adding (user_id : Z) (b : bool) : M unit := λ w,
  (Ok tt, set_user_data (<[user_id := b]> (user_data w)) w).

Section Handlers.

(** Process-wide configuration and the Python built-ins the handlers call. *)
Variable ADMIN_IDS : gset Z.
Variable py_int : string → option Z.       (* int(s); None is ValueError *)
Variable py_strip : string → string.       (* s.strip() *)

Definition int_or_raise (s : string) : M Z :=
  match py_int s with
  | Some z => ret z
  | None => raise ValueError
  end.

(** [has_message] tells whether [update.message] is set: it is for a
    command, it is not for a button press. *)
Definition catalog (has_message : bool) (args : list string) : M reply :=
  let page :=
    match args with
    | [] => 0
    | a :: _ => match py_int a with Some n => n | None => 0 end
    end in
  let* ps := db_get_products page in
  if has_message then
    match ps with
    | [] => ret ReplyCatalogEmpty
    | _ :: _ => ret (ReplyCatalog ps)
    end
  else raise AttributeError.

Definition callback_query_handler (user_id : Z) (data : string) : M reply :=
  if String.prefix "view_" data then
    match str_split1 "_" data !! 1%nat with
    | None => raise IndexError
    | Some pid_s =>
        let* pid := int_or_raise pid_s in
        let* p := db_get_product pid in
        match p with
        | None => ret ReplyProductNotFound
        | Some p => ret (ReplyProductCard p)
        end
    end
  else if String.prefix "add_" data then
    match str_split "_" data with
    | [_; pid_s; qty_s] =>
        let* pid := int_or_raise pid_s in
        let* qty := int_or_raise qty_s in
        let* _ := db_add_to_cart user_id pid qty in
        ret ReplyAddedToCart
    | _ => raise ValueError
    end
  else if decide (data = "back_0"%string) then
    catalog false []
  else if String.prefix "remove_" data then
    match str_split1 "_" data !! 1%nat with
    | None => raise IndexError
    | Some pid_s =>
        let* pid := int_or_raise pid_s in
        let* _ := with_connection (λ _ d, Ok (sql_delete_cart_row user_id pid d, tt)) in
        ret ReplyRemoved
    end
  else ret ReplyNone.

Definition admin_add_start (user_id : Z) : M reply :=
  if decide (user_id ∈ ADMIN_IDS) then
    let* _ := set_admin_adding user_id true in
    ret ReplyAdminPrompt
  else ret ReplyAccessDenied.

Definition text_handler (user_id : Z) (txt : string) : M reply :=
  let* adding := get_admin_adding user_id in
  if adding && bool_decide (user_id ∈ ADMIN_IDS) then
    match py_strip <$> str_split "|" txt with
    | title :: desc :: price :: rest =>
        let image := head rest in
        match py_int price with
        | None => ret ReplyPriceNotInteger
        | Some price_i =>
            let* pid := db_add_product title (Some desc) price_i image in
            let* _ := set_admin_adding user_id false in
            ret (ReplyProductAdded pid)
        end
    | _ => ret ReplyBadFormat
    end
  else ret ReplyUnknownCommand.

Definition admin_list_orders_cmd (user_id : Z) : M reply :=
  if decide (user_id ∈ ADMIN_IDS) then
    let* rows := db_list_orders in
    match rows with
    | [] => ret ReplyNoOrders
    | _ :: _ => ret (ReplyOrders (take 20 rows))
    end
  else ret ReplyAccessDenied.

End Handlers.

(** ** The bot as a transition system *)

(** One update delivered to a handler, or a change of the environment
    (the clock moves, the storage changes its mind about failing). *)
Inductive event :=
| EvCatalog (args : list string)
| EvCallback (user_id : Z) (data : string)
| EvViewCart (user_id : Z)
| EvCheckout (user_id : Z)
| EvAdminAdd (user_id : Z)
| EvText (user_id : Z) (txt : string)
| EvAdminListOrders (user_id : Z)
| EvEnvironment (clock : Z) (schedule : list nat).

Section Bot.

Variable ADMIN_IDS : gset Z.
Variable py_int : string → option Z.
Variable py_strip : string → string.

(** The world after the handler returned or raised: what was committed
    before an exception stays committed. *)
Definition handle (ev : event) (w : world) : world :=
  match ev with
  | EvCatalog args => (catalog py_int true args w).2
  | EvCallback user_id data => (callback_query_handler py_int user_id data w).2
  | EvViewCart user_id => (view_cart user_id w).2
  | EvCheckout user_id => (checkout_callback user_id w).2
  | EvAdminAdd user_id => (admin_add_start ADMIN_IDS user_id w).2
  | EvText user_id txt => (text_handler ADMIN_IDS py_int py_strip user_id txt w).2
  | EvAdminListOrders user_id => (admin_list_orders_cmd ADMIN_IDS user_id w).2
  | EvEnvironment clock schedule =>
      {| db := db w; now := clock; faults := schedule; user_data := user_data w |}
  end.

Definition run_events (evs : list event) (w : world) : world :=
  foldl (λ w ev, handle ev w) w evs.

End Bot.

(** The user an update comes from. *)
Definition event_user (ev : event) : option Z :=
  match ev with
  | EvCallback u _ | EvViewCart u | EvCheckout u
  | EvAdminAdd u | EvText u _ | EvAdminListOrders u => Some u
  | EvCatalog _ | EvEnvironment _ _ => None
  end.

(** ** What the specification calls the cart *)

(** The listing of section 4.2: the lines of the user, each with its
    product resolved, the lines whose product is missing left out. *)
Definition resolve_line (d : DB) (row : Z * Z) : option cart_item :=
  (λ p, CartItem p row.2) <$> sql_select_product row.1 d.

Definition cart_listing (user_id : Z) (d : DB) : list cart_item :=
  omap (resolve_line d) (sql_select_cart user_id d).

(** The total of section 4.2: the sum of unit price times quantity. *)
Definition cart_total (items : list cart_item) : Z :=
  foldr (λ it acc, p_price (ci_product it) * ci_qty it + acc) 0 items.

(** The rows of a user in [carts]. *)
Definition cart_lines (user_id : Z) (d : DB) : list cart_row :=
  filter (λ c, c_user_id c = user_id) (carts d).

(** [addToCart] in the words of section 4.2: if a line for the pair exists,
    add the amount to its quantity; otherwise create the line. *)
Definition add_to_cart_spec (user_id product_id qty : Z) (d : DB) : DB :=
  match filter (cart_key_is user_id product_id) (carts d) with
  | [] => set_carts (carts d ++ [CartRow user_id product_id qty]) d
  | _ :: _ => sql_update_cart_qty qty user_id product_id d
  end.


(** ** Invariants and frames *)

(** The primary key of a row of [carts]. *)
Definition cart_key (c : cart_row) : Z * Z := (c_user_id c, c_product_id c).

(** The primary key of [carts] holds: no two rows share a key. *)
Definition cart_keys_unique (d : DB) : Prop :=
  NoDup (cart_key <$> carts d).

(** The ids ascend along the rows of [products]: [id] is the rowid, the
    rows are kept in rowid order, and [AUTOINCREMENT] hands out ever larger
    ids. *)
Definition products_ascending (d : DB) : Prop :=
  StronglySorted (λ p q, p_id p < p_id q) (products d).

Global Instance cart_keys_unique_dec d : Decision (cart_keys_unique d).
Proof. unfold cart_keys_unique. apply _. Defined.

Global Instance products_ascending_dec d : Decision (products_ascending d).
Proof.
  unfold products_ascending.
  induction (products d) as [|p l IH].
  - left. constructor.
  - destruct IH as [IH|IH].
    + destruct (decide (Forall (λ q, p_id p < p_id q) l)) as [Hp|Hp].
      * left. by constructor.
      * right. by intros [? ?]%StronglySorted_cons.
    + right. by intros [? ?]%StronglySorted_cons.
Defined.

(** [within R m]: whatever the fault schedule and the outcome, [m] takes
    the database to one related to it by [R]. *)
Definition within {A} (R : relation DB) (m : M A) : Prop :=
  ∀ w, R (db w) (db (m w).2).

(** [keeps P]: the relation between a database and any database in which
    [P] still holds if it held before. *)
Definition keeps (P : DB → Prop) : relation DB := λ d d', P d → P d'.

Global Instance keeps_preorder (P : DB → Prop) : PreOrder (keeps P).
Proof. split; [intros d H; exact H | intros d1 d2 d3 H12 H23 H; exact (H23 (H12 H))]. Defined.

(** What an operation on behalf of somebody else must leave alone: the
    cart lines of user [v] and the catalog. *)
Definition untouched_for (v : Z) : relation DB := λ d d',
  cart_lines v d' = cart_lines v d ∧ products d' = products d.

Global Instance untouched_for_preorder v : PreOrder (untouched_for v).
Proof.
  split.
  - by intros d.
  - intros d1 d2 d3 [H1 H2] [H3 H4]. split; congruence.
Defined.

(** The catalog is as it was. *)
Definition same_products : relation DB := λ d d', products d' = products d.

Global Instance same_products_preorder : PreOrder same_products.
Proof.
  split.
  - by intros d.
  - intros d1 d2 d3 H1 H2. unfold same_products in *. congruence.
Defined.

(** ** Sample data *)

(** [int()] on plain ASCII decimal literals with an optional sign: a
    concrete instance of the built-in, used to run the handlers on
    concrete input. *)
Definition digit_of_ascii (c : ascii) : option Z :=
  let n := Z.of_nat (nat_of_ascii c) in
  if (48 <=? n) && (n <=? 57) then Some (n - 48) else None.

Fixpoint digits_value (s : string) (acc : Z) : option Z :=
  match s with
  | EmptyString => Some acc
  | String c s' =>
      match digit_of_ascii c with
      | Some d => digits_value s' (10 * acc + d)
      | None => None
      end
  end.

Definition int_decimal (s : string) : option Z :=
  match s with
  | EmptyString => None
  | String "-" (String _ _ as s') => Z.opp <$> digits_value s' 0
  | String "+" (String _ _ as s') => digits_value s' 0
  | _ => digits_value s 0
  end.

(** A sample store: two products; user 1 holds two Widgets and a line for
    a product that does not exist, user 2 holds one Gadget, user 4 only a
    line for the missing product. *)
Definition sample_db : DB :=
  {| products := [Product 1 "Widget" None 500 None;
                  Product 2 "Gadget" (Some "small") 300 None];
     products_seq := 2;
     carts := [CartRow 1 1 2; CartRow 1 9 5; CartRow 2 2 1; CartRow 4 9 1];
     orders := [];
     orders_seq := 0 |}.

Definition sample_world : world :=
  {| db := sample_db; now := 100; faults := []; user_data := ∅ |}.

(** The sample store with a storage that serves three connections and
    fails on the fourth. *)
Definition failing_world : world := set_faults [3%nat] sample_world.

(** The sample store where user 7, who is no admin, has the
    [admin_adding] flag set. *)
Definition flagged_world : world := set_user_data {[7 := true]} sample_world.



(** ** Growth of the append-only tables *)

(** [products] only grows at its end. *)
Definition products_grow : relation DB := λ d d',
  products d `prefix_of` products d'.

Global Instance products_grow_preorder : PreOrder products_grow.
Proof.
  split.
  - intros d. unfold products_grow. reflexivity.
  - intros d1 d2 d3 H1 H2. unfold products_grow in *. by etransitivity.
Defined.

(** [orders] only grows at its end. *)
Definition orders_grow : relation DB := λ d d',
  orders d `prefix_of` orders d'.

Global Instance orders_grow_preorder : PreOrder orders_grow.
Proof.
  split.
  - intros d. unfold orders_grow. reflexivity.
  - intros d1 d2 d3 H1 H2. unfold orders_grow in *. by etransitivity.
Defined.

(** The ids ascend along the rows of [orders], as they do in [products]. *)
Definition orders_ascending (d : DB) : Prop :=
  StronglySorted (λ o1 o2, o_id o1 < o_id o2) (orders d).

(** The orders are as they were. *)
Definition same_orders : relation DB := λ d d', orders d' = orders d.

Global Instance same_orders_preorder : PreOrder same_orders.
Proof.
  split.
  - by intros d.
  - intros d1 d2 d3 H1 H2. unfold same_orders in *. congruence.
Defined.

(** [str.strip()] on ASCII white space: a concrete instance of the
    built-in, used to run [text_handler] on concrete input. *)
Definition is_ascii_space (c : ascii) : bool :=
  let n := nat_of_ascii c in
  (n =? 32)%nat || ((9 <=? n)%nat && (n <=? 13)%nat).

Fixpoint lstrip_ascii (s : string) : string :=
  match s with
  | EmptyString => EmptyString
  | String c s' => if is_ascii_space c then lstrip_ascii s' else s
  end.

Fixpoint rstrip_ascii (s : string) : string :=
  match s with
  | EmptyString => EmptyString
  | String c s' =>
      match rstrip_ascii s' with
      | EmptyString => if is_ascii_space c then EmptyString else String c EmptyString
      | r => String c r
      end
  end.

Definition strip_ascii (s : string) : string := rstrip_ascii (lstrip_ascii s).

(** The sample store where user 5, the admin of the examples, has the
    [admin_adding] flag set. *)
Definition admin_world : world := set_user_data {[5 := true]} sample_world.


(** The rows of [carts] are as they were. *)
Definition same_carts : relation DB := λ d d', carts d' = carts d.

Global Instance same_carts_preorder : PreOrder same_carts.
Proof.
  split.
  - by intros d.
  - intros d1 d2 d3 H1 H2. unfold same_carts in *. congruence.
Defined.


(** * Properties *)

(** ** Running a unit of work *)

Lemma with_connection_reliable {A} (body : Z → DB → result (DB * A)) w :
  faults w = [] →
  with_connection body w =
    match body (now w) (db w) with
    | Ok (d', a) => (Ok a, set_db d' w)
    | Raise e => (Raise e, w)
    end.
Proof.
  destruct w as [d n fs ud]; simpl; intros ->.
  unfold with_connection; simpl.
  destruct (body n d) as [[d' a]|e]; reflexivity.
Qed.

(** A unit of work either commits what its body computed, or raises and
    leaves the database as it was. *)
Lemma with_connection_cases {A} (body : Z → DB → result (DB * A)) w :
  now (with_connection body w).2 = now w ∧
  user_data (with_connection body w).2 = user_data w ∧
  ((∃ a, body (now w) (db w) = Ok (db (with_connection body w).2, a) ∧
         (with_connection body w).1 = Ok a) ∨
   (∃ e, (with_connection body w).1 = Raise e ∧
         db (with_connection body w).2 = db w)).
Proof.
  destruct w as [d n fs ud]. unfold with_connection; simpl.
  destruct fs as [|[|k] fs]; simpl;
    try (destruct (body n d) as [[d' a]|e] eqn:Hb; simpl);
    repeat split; eauto.
Qed.

(** ** Relations every step of a computation respects *)

Section Within.
Context (R : relation DB) `{!PreOrder R}.

Lemma within_ret {A} (a : A) : within R (ret a).
Proof. intros w. simpl. reflexivity. Qed.

Lemma within_raise {A} (e : exn) : within R (raise (A := A) e).
Proof. intros w. simpl. reflexivity. Qed.

Lemma within_bind {A B} (m : M A) (k : A → M B) :
  within R m → (∀ a, within R (k a)) → within R (bind m k).
Proof.
  intros Hm Hk w. unfold bind. specialize (Hm w).
  destruct (m w) as [[a|e] w1]; simpl in *.
  - etransitivity; [exact Hm | apply Hk].
  - exact Hm.
Qed.

Lemma within_connection {A} (body : Z → DB → result (DB * A)) :
  (∀ t d d' a, body t d = Ok (d', a) → R d d') →
  within R (with_connection body).
Proof.
  intros Hb w.
  destruct (with_connection_cases body w) as (_ & _ & [(a & Hok & _)|(e & _ & Hdb)]).
  - eapply Hb, Hok.
  - rewrite Hdb. reflexivity.
Qed.

Lemma within_get_admin_adding u : within R (get_admin_adding u).
Proof. intros w. simpl. reflexivity. Qed.

Lemma within_set_admin_adding u b : within R (set_admin_adding u b).
Proof. intros w. simpl. reflexivity. Qed.
End Within.

(** A read-only unit of work. *)
Lemma within_query (R : relation DB) `{!PreOrder R} {A} (f : Z → DB → A) :
  within R (with_connection (λ t d, Ok (d, f t d))).
Proof.
  apply within_connection; [assumption|].
  intros t d d' a [= <- _]. reflexivity.
Qed.

(** ** Reading the cart *)

Lemma set_db_same w : set_db (db w) w = w.
Proof. by destruct w. Qed.

Lemma db_get_product_reliable pid w :
  faults w = [] →
  db_get_product pid w = (Ok (sql_select_product pid (db w)), w).
Proof.
  intros Hf. unfold db_get_product.
  rewrite with_connection_reliable by done. by rewrite set_db_same.
Qed.


Lemma db_get_cart_loop_reliable rows : ∀ items total w,
  faults w = [] →
  db_get_cart_loop rows items total w =
    (Ok (items ++ omap (resolve_line (db w)) rows,
         total + cart_total (omap (resolve_line (db w)) rows)), w).
Proof.
  induction rows as [|[pid qty] rows IH]; intros items total w Hf; simpl.
  - unfold ret. by rewrite app_nil_r, Z.add_0_r.
  - unfold bind. rewrite db_get_product_reliable by done.
    assert (Hr : resolve_line (db w) (pid, qty)
                 = (λ p, CartItem p qty) <$> sql_select_product pid (db w)) by done.
    rewrite Hr.
    destruct (sql_select_product pid (db w)) as [p|]; simpl.
    + rewrite IH by done. by rewrite <- app_assoc, Z.add_assoc.
    + by rewrite IH.
Qed.

Lemma db_get_cart_reliable user_id w :
  faults w = [] →
  db_get_cart user_id w =
    (Ok (cart_listing user_id (db w), cart_total (cart_listing user_id (db w))), w).
Proof.
  intros Hf. unfold db_get_cart, bind.
  rewrite with_connection_reliable by done. rewrite set_db_same.
  by rewrite db_get_cart_loop_reliable.
Qed.

(** Reading never writes, whatever the storage does. *)
Lemma within_db_get_product (R : relation DB) `{!PreOrder R} pid :
  within R (db_get_product pid).
Proof. unfold db_get_product. by apply (within_query R (λ _ d, sql_select_product pid d)). Qed.

Lemma within_db_get_cart_loop (R : relation DB) `{!PreOrder R} rows :
  ∀ items total, within R (db_get_cart_loop rows items total).
Proof.
  induction rows as [|[pid qty] rows IH]; intros items total; simpl.
  - by apply within_ret.
  - apply within_bind; [done | by apply within_db_get_product |].
    intros [p|]; apply IH.
Qed.

Lemma within_db_get_cart (R : relation DB) `{!PreOrder R} user_id :
  within R (db_get_cart user_id).
Proof.
  unfold db_get_cart. apply within_bind; [done | |].
  - by apply (within_query R (λ _ d, sql_select_cart user_id d)).
  - intros rows. by apply within_db_get_cart_loop.
Qed.

Lemma within_db_get_products (R : relation DB) `{!PreOrder R} page :
  within R (db_get_products page).
Proof.
  unfold db_get_products.
  by apply (within_query R (λ _ d, limit_offset PAGE_SIZE (PAGE_SIZE * page)
                                     (order_by_desc p_id (products d)))).
Qed.

Lemma within_db_list_orders (R : relation DB) `{!PreOrder R} :
  within R db_list_orders.
Proof. unfold db_list_orders. by apply (within_query R (λ _ d, sql_select_orders d)). Qed.

(** A unit of work whose body cannot raise: it commits, or the storage
    fails and nothing is written. *)
Lemma exec_outcome {A} (f : Z → DB → DB * A) w :
  let r := with_connection (λ t d, Ok (f t d)) w in
  now r.2 = now w ∧ user_data r.2 = user_data w ∧
  ((r.1 = Ok (f (now w) (db w)).2 ∧ db r.2 = (f (now w) (db w)).1) ∨
   (r.1 = Raise OperationalError ∧ db r.2 = db w)).
Proof.
  destruct w as [d n fs ud]. unfold with_connection; simpl.
  destruct fs as [|[|k] fs]; simpl; try destruct (f n d) as [d' a]; simpl; auto.
Qed.

Lemma query_outcome {A} (f : Z → DB → A) w :
  let r := with_connection (λ t d, Ok (d, f t d)) w in
  db r.2 = db w ∧ now r.2 = now w ∧ user_data r.2 = user_data w ∧
  (r.1 = Ok (f (now w) (db w)) ∨ r.1 = Raise OperationalError).
Proof.
  destruct (exec_outcome (λ t d, (d, f t d)) w) as (Hn & Hu & [[Hr Hd]|[Hr Hd]]);
    simpl in *; auto.
Qed.

Lemma db_get_cart_loop_outcome rows : ∀ items total w,
  let r := db_get_cart_loop rows items total w in
  db r.2 = db w ∧ now r.2 = now w ∧ user_data r.2 = user_data w ∧
  (r.1 = Ok (items ++ omap (resolve_line (db w)) rows,
             total + cart_total (omap (resolve_line (db w)) rows)) ∨
   r.1 = Raise OperationalError).
Proof.
  induction rows as [|[pid qty] rows IH]; intros items total w; simpl.
  - rewrite app_nil_r, Z.add_0_r. auto.
  - unfold bind, db_get_product.
    destruct (query_outcome (λ _ d, sql_select_product pid d) w)
      as (Hd & Hn & Hu & Hr); simpl in Hd, Hn, Hu, Hr.
    destruct (with_connection _ w) as [r w1]; simpl in *.
    destruct Hr as [-> | ->]; [|auto].
    assert (Hl : resolve_line (db w) (pid, qty)
                 = (λ p, CartItem p qty) <$> sql_select_product pid (db w)) by done.
    rewrite Hl.
    destruct (sql_select_product pid (db w)) as [p|]; simpl.
    + specialize (IH (items ++ [CartItem p qty]) (total + p_price p * qty) w1).
      simpl in IH. rewrite Hd, Hn, Hu in IH.
      by rewrite <- app_assoc, <- Z.add_assoc in IH.
    + specialize (IH items total w1). simpl in IH. by rewrite Hd, Hn, Hu in IH.
Qed.

(** Reading the cart, whatever the storage does: nothing is written, and
    a result, when there is one, is the listing and its total. *)
Lemma db_get_cart_outcome user_id w :
  let r := db_get_cart user_id w in
  db r.2 = db w ∧ now r.2 = now w ∧ user_data r.2 = user_data w ∧
  (r.1 = Ok (cart_listing user_id (db w),
             cart_total (cart_listing user_id (db w))) ∨
   r.1 = Raise OperationalError).
Proof.
  unfold db_get_cart, bind; simpl.
  destruct (query_outcome (λ _ d, sql_select_cart user_id d) w)
    as (Hd & Hn & Hu & Hr); simpl in Hd, Hn, Hu, Hr.
  destruct (with_connection _ w) as [r w1]; simpl in *.
  destruct Hr as [-> | ->]; [|auto].
  pose proof (db_get_cart_loop_outcome (sql_select_cart user_id (db w)) [] 0 w1) as H.
  simpl in H. by rewrite Hd, Hn, Hu in H.
Qed.


Lemma cart_listing_lines user_id d :
  cart_listing user_id d =
    omap (λ c, (λ p, CartItem p (c_qty c)) <$> sql_select_product (c_product_id c) d)
         (cart_lines user_id d).
Proof.
  unfold cart_listing, sql_select_cart, cart_lines.
  induction (filter _ (carts d)) as [|c l IH]; [done|].
  simpl. unfold resolve_line at 1; simpl.
  destruct (sql_select_product (c_product_id c) d); simpl; [f_equal|]; exact IH.
Qed.



(** ** Checkout *)

Lemma max_rowid_ge ids x : x ∈ ids → x ≤ max_rowid ids.
Proof.
  induction ids as [|y ids IH]; simpl.
  - by intros ?%elem_of_nil.
  - intros [->|Hx]%elem_of_cons; [lia|]. specialize (IH Hx). lia.
Qed.

Lemma next_rowid_above seq ids x : x ∈ ids → x < next_rowid seq ids.
Proof. intros Hx%max_rowid_ge. unfold next_rowid. lia. Qed.


Lemma cart_lines_delete_cart user_id d :
  cart_lines user_id (sql_delete_cart user_id d) = [].
Proof.
  unfold cart_lines, sql_delete_cart; simpl.
  induction (carts d) as [|c l IH]; [done|].
  rewrite filter_cons. destruct (decide (c_user_id c ≠ user_id)) as [Hc|Hc]; [|done].
  rewrite filter_cons. by destruct (decide (c_user_id c = user_id)).
Qed.

Lemma cart_listing_no_lines user_id d :
  cart_lines user_id d = [] → cart_listing user_id d = [].
Proof. intros H. by rewrite cart_listing_lines, H. Qed.

(** Every way [checkout_callback] can end, whatever the storage does. *)
Lemma checkout_callback_outcome user_id w :
  let r := checkout_callback user_id w in
  let items := cart_listing user_id (db w) in
  let total := cart_total items in
  let ins := sql_insert_order user_id (payload_item <$> items) total (now w) (db w) in
  now r.2 = now w ∧ user_data r.2 = user_data w ∧
  ((r.1 = Raise OperationalError ∧ db r.2 = db w) ∨
   (items = [] ∧ r.1 = Ok ReplyCartEmpty ∧ db r.2 = db w) ∨
   (items ≠ [] ∧ r.1 = Raise OperationalError ∧ db r.2 = ins.1) ∨
   (items ≠ [] ∧ r.1 = Ok (ReplyOrderCreated ins.2 total) ∧
      db r.2 = sql_delete_cart user_id ins.1)).
Proof.
  unfold checkout_callback, bind.
  destruct (db_get_cart_outcome user_id w) as (Hd & Hn & Hu & Hr).
  destruct (db_get_cart user_id w) as [r w1]; simpl in Hd, Hn, Hu, Hr.
  destruct Hr as [-> | ->]; [|simpl; auto].
  destruct (cart_listing user_id (db w)) as [|it items] eqn:Hi;
    [simpl; split_and!; [done..|]; right; left; done|].
  unfold db_create_order.
  destruct (exec_outcome
              (λ t d, sql_insert_order user_id (payload_item <$> (it :: items))
                        (cart_total (it :: items)) t d) w1)
    as (Hn1 & Hu1 & Ho); simpl in Hn1, Hu1, Ho.
  destruct (with_connection _ w1) as [r1 w2]; simpl in Hn1, Hu1, Ho.
  rewrite Hd, Hn in Ho.
  destruct Ho as [[-> Hd2] | [-> Hd2]]; [|simpl; rewrite Hd2; split_and!; auto; congruence].
  unfold db_clear_cart.
  destruct (exec_outcome (λ _ d, (sql_delete_cart user_id d, tt)) w2)
    as (Hn2 & Hu2 & Hc); simpl in Hn2, Hu2, Hc.
  destruct (with_connection _ w2) as [r2 w3]; simpl in Hn2, Hu2, Hc.
  destruct Hc as [[-> Hd3] | [-> Hd3]]; simpl; rewrite Hd3, Hd2.
  - split_and!; [congruence..|]. do 3 right. done.
  - split_and!; [congruence..|]. do 2 right. left. done.
Qed.

(** A checkout that meets no storage failure. *)
Lemma checkout_callback_reliable user_id w :
  faults w = [] →
  cart_listing user_id (db w) ≠ [] →
  let items := cart_listing user_id (db w) in
  let ins := sql_insert_order user_id (payload_item <$> items) (cart_total items)
               (now w) (db w) in
  checkout_callback user_id w =
    (Ok (ReplyOrderCreated ins.2 (cart_total items)),
     set_db (sql_delete_cart user_id ins.1) w).
Proof.
  intros Hf Hne items ins. subst ins.
  unfold checkout_callback, bind. rewrite db_get_cart_reliable by done.
  fold items. destruct items as [|it its] eqn:Hi; [done|].
  unfold db_create_order, db_clear_cart.
  rewrite with_connection_reliable by done. cbn [sql_insert_order].
  by rewrite with_connection_reliable by done.
Qed.



Lemma cart_listing_nil_iff user_id d :
  cart_listing user_id d = [] ↔
  ∀ c, c ∈ carts d → c_user_id c = user_id →
       sql_select_product (c_product_id c) d = None.
Proof.
  rewrite cart_listing_lines. unfold cart_lines. split.
  - intros Hnil c Hc Hu.
    destruct (sql_select_product (c_product_id c) d) as [p|] eqn:Hp; [|done].
    assert (CartItem p (c_qty c) ∈ @nil cart_item) as []%elem_of_nil.
    rewrite <- Hnil. apply list_elem_of_omap. exists c. split.
    + by apply list_elem_of_filter.
    + by rewrite Hp.
  - intros Hall. apply elem_of_nil_inv. intros it (c & Hc & Hit)%list_elem_of_omap.
    apply list_elem_of_filter in Hc as [Hu Hc].
    by rewrite (Hall c Hc Hu) in Hit.
Qed.

(** C3: when the user has no cart line whose product resolves (no line at
    all, or only lines for missing products), [checkout_callback] answers
    with the cart-is-empty notice and writes nothing: the database, and with
    it [orders], is as before, also when the storage fails on the way. *)
Theorem checkout_empty_cart_changes_nothing user_id w :
  (∀ c, c ∈ carts (db w) → c_user_id c = user_id →
        sql_select_product (c_product_id c) (db w) = None) →
  db (checkout_callback user_id w).2 = db w ∧
  user_data (checkout_callback user_id w).2 = user_data w ∧
  (faults w = [] → checkout_callback user_id w = (Ok ReplyCartEmpty, w)).
Proof.
  intros Hnil%cart_listing_nil_iff.
  destruct (checkout_callback_outcome user_id w) as (_ & Hu & Hcases).
  split_and!.
  - destruct Hcases as [[_ ?]|[(_ & _ & ?)|[(? & _)|(? & _)]]]; done.
  - done.
  - intros Hf. unfold checkout_callback, bind.
    rewrite db_get_cart_reliable by done. by rewrite Hnil.
Qed.

Lemma checkout_empty_cart_changes_nothing_witness :
  (∀ c, c ∈ carts (db sample_world) → c_user_id c = 4 →
        sql_select_product (c_product_id c) (db sample_world) = None) ∧
  checkout_callback 4 sample_world = (Ok ReplyCartEmpty, sample_world).
Proof.
  assert (H : ∀ c, c ∈ carts (db sample_world) → c_user_id c = 4 →
                   sql_select_product (c_product_id c) (db sample_world) = None).
  { apply cart_listing_nil_iff. reflexivity. }
  split; [exact H|].
  exact (proj2 (proj2 (checkout_empty_cart_changes_nothing 4 sample_world H)) eq_refl).
Defined.

(** C4: if the order write of a checkout raises, the exception leaves
    [checkout_callback] before [db_clear_cart] runs: the cart lines (and
    the orders) are as they were.  And in every run, whatever fails, the
    cart can only have changed when the order row is already in [orders]. *)
Theorem checkout_clears_cart_only_after_order user_id w :
  (∀ items total w1 e w2,
     db_get_cart user_id w = (Ok (items, total), w1) →
     items ≠ [] →
     db_create_order user_id (payload_item <$> items) total w1 = (Raise e, w2) →
     checkout_callback user_id w = (Raise e, w2) ∧
     carts (db w2) = carts (db w) ∧ orders (db w2) = orders (db w)) ∧
  (carts (db (checkout_callback user_id w).2) ≠ carts (db w) →
     ∃ o, orders (db (checkout_callback user_id w).2) = orders (db w) ++ [o] ∧
          o_user_id o = user_id ∧
          (checkout_callback user_id w).1 = Ok (ReplyOrderCreated (o_id o) (o_total o))).
Proof.
  split.
  - intros items total w1 e w2 Hget Hne Hcreate.
    destruct (db_get_cart_outcome user_id w) as (Hd & _ & _ & _).
    rewrite Hget in Hd; simpl in Hd.
    destruct (exec_outcome
                (λ t d, sql_insert_order user_id (payload_item <$> items) total t d) w1)
      as (_ & _ & Ho).
    fold (db_create_order user_id (payload_item <$> items) total) in Ho.
    rewrite Hcreate in Ho; simpl in Ho.
    destruct Ho as [[[=] _] | [_ Hd2]].
    split.
    + unfold checkout_callback, bind. rewrite Hget.
      destruct items as [|it its]; [done|]. by rewrite Hcreate.
    + by rewrite Hd2, Hd.
  - intros Hchg.
    destruct (checkout_callback_outcome user_id w) as (_ & _ & Hcases).
    destruct Hcases as [[_ Hd]|[(_ & _ & Hd)|[(_ & _ & Hd)|(_ & Hr & Hd)]]];
      try (rewrite Hd in Hchg; done).
    rewrite Hr, Hd. simpl. eexists. split; [reflexivity|]. done.
Qed.

Lemma checkout_clears_cart_only_after_order_witness :
  db_get_cart 1 failing_world =
    (Ok ([CartItem (Product 1 "Widget" None 500 None) 2], 1000),
     set_faults [0%nat] sample_world) ∧
  [CartItem (Product 1 "Widget" None 500 None) 2] ≠ [] ∧
  db_create_order 1 [OrderItem 1 "Widget" 2 500] 1000 (set_faults [0%nat] sample_world)
    = (Raise OperationalError, sample_world) ∧
  checkout_callback 1 failing_world = (Raise OperationalError, sample_world) ∧
  carts (db sample_world) = carts (db failing_world).
Proof.
  assert (H1 : db_get_cart 1 failing_world =
                 (Ok ([CartItem (Product 1 "Widget" None 500 None) 2], 1000),
                  set_faults [0%nat] sample_world)) by reflexivity.
  assert (H2 : [CartItem (Product 1 "Widget" None 500 None) 2] ≠ []) by discriminate.
  assert (H3 : db_create_order 1 [OrderItem 1 "Widget" 2 500] 1000
                 (set_faults [0%nat] sample_world)
               = (Raise OperationalError, sample_world)) by reflexivity.
  split; [exact H1|]. split; [exact H2|]. split; [exact H3|].
  destruct (proj1 (checkout_clears_cart_only_after_order 1 failing_world)
              _ _ _ _ _ H1 H2 H3) as (Hrun & Hcarts & _).
  split; [exact Hrun | exact Hcarts].
Defined.

(** ** Adding to the cart *)

Lemma with_connection_ext {A} (body1 body2 : Z → DB → result (DB * A)) w :
  (∀ t d, body1 t d = body2 t d) →
  with_connection body1 w = with_connection body2 w.
Proof.
  intros Hb. unfold with_connection.
  destruct (faults w) as [|[|k] fs]; by rewrite ?Hb.
Qed.

(** The branch on [fetchone] keeps [INSERT] away from an existing key: the
    unit of work of [db_add_to_cart] never raises [IntegrityError]. *)
Lemma db_add_to_cart_body user_id product_id qty d :
  match sql_select_cart_qty user_id product_id d with
  | Some _ => Ok (sql_update_cart_qty qty user_id product_id d, tt)
  | None =>
      match sql_insert_cart user_id product_id qty d with
      | Ok d' => Ok (d', tt)
      | Raise e => Raise e
      end
  end = Ok (add_to_cart_spec user_id product_id qty d, tt).
Proof.
  unfold sql_select_cart_qty, sql_insert_cart, add_to_cart_spec.
  by destruct (filter (cart_key_is user_id product_id) (carts d)).
Qed.

Lemma db_add_to_cart_exec user_id product_id qty w :
  db_add_to_cart user_id product_id qty w =
  with_connection (λ _ d, Ok (add_to_cart_spec user_id product_id qty d, tt)) w.
Proof.
  unfold db_add_to_cart. apply with_connection_ext.
  intros _ d. apply db_add_to_cart_body.
Qed.

Lemma db_add_to_cart_reliable user_id product_id qty w :
  faults w = [] →
  db_add_to_cart user_id product_id qty w =
    (Ok tt, set_db (add_to_cart_spec user_id product_id qty (db w)) w).
Proof.
  intros Hf. rewrite db_add_to_cart_exec. by rewrite with_connection_reliable.
Qed.



Lemma bump_key_is qty u p u' p' c :
  cart_key_is u' p' (bump qty u p c) ↔ cart_key_is u' p' c.
Proof. unfold bump. by destruct (decide _). Qed.




Lemma sql_update_cart_qty_bump qty u p d :
  sql_update_cart_qty qty u p d = set_carts (bump qty u p <$> carts d) d.
Proof. reflexivity. Qed.










(** ** What the handlers may write *)

Ltac within_step :=
  match goal with
  | |- within _ (ret _) => apply within_ret
  | |- within _ (raise _) => apply within_raise
  | |- within _ (get_admin_adding _) => apply within_get_admin_adding
  | |- within _ (set_admin_adding _ _) => apply within_set_admin_adding
  | |- within _ (db_get_product _) => apply within_db_get_product
  | |- within _ (db_get_products _) => apply within_db_get_products
  | |- within _ (db_get_cart _) => apply within_db_get_cart
  | |- within _ db_list_orders => apply within_db_list_orders
  | |- within _ (bind _ _) => apply within_bind; [| |intros ?]
  | |- within _ (match ?x with _ => _ end) => destruct x
  | |- PreOrder _ => assumption
  end.

Section HandlersWithin.
Context (R : relation DB) `{!PreOrder R}.
Variable ADMIN_IDS : gset Z.
Variable py_int : string → option Z.
Variable py_strip : string → string.

Lemma within_db_add_product title description price image :
  (∀ d, R d (sql_insert_product title description price image d).1) →
  within R (db_add_product title description price image).
Proof.
  intros HR. apply within_connection; [done|].
  intros t d d' a [= <- _]. apply HR.
Qed.

Lemma within_db_add_to_cart user_id product_id qty :
  (∀ d, R d (add_to_cart_spec user_id product_id qty d)) →
  within R (db_add_to_cart user_id product_id qty).
Proof.
  intros HR w. rewrite db_add_to_cart_exec.
  revert w. apply within_connection; [done|].
  intros t d d' a [= <- _]. apply HR.
Qed.

Lemma within_db_clear_cart user_id :
  (∀ d, R d (sql_delete_cart user_id d)) → within R (db_clear_cart user_id).
Proof.
  intros HR. apply within_connection; [done|].
  intros t d d' a [= <- _]. apply HR.
Qed.

Lemma within_db_create_order user_id items total :
  (∀ t d, R d (sql_insert_order user_id items total t d).1) →
  within R (db_create_order user_id items total).
Proof.
  intros HR. apply within_connection; [done|].
  intros t d d' a [= <- _]. apply HR.
Qed.

Lemma within_view_cart user_id : within R (view_cart user_id).
Proof. unfold view_cart. repeat within_step. Qed.

Lemma within_checkout_callback user_id :
  (∀ items total t d, R d (sql_insert_order user_id items total t d).1) →
  (∀ d, R d (sql_delete_cart user_id d)) →
  within R (checkout_callback user_id).
Proof.
  intros Hins Hdel. unfold checkout_callback. repeat within_step.
  - by apply within_db_create_order.
  - by apply within_db_clear_cart.
Qed.

Lemma within_int_or_raise s : within R (int_or_raise py_int s).
Proof. unfold int_or_raise. repeat within_step. Qed.

Lemma within_catalog has_message args : within R (catalog py_int has_message args).
Proof. unfold catalog. repeat within_step. Qed.

Lemma within_callback_query_handler user_id data :
  (∀ p q d, R d (add_to_cart_spec user_id p q d)) →
  (∀ p d, R d (sql_delete_cart_row user_id p d)) →
  within R (callback_query_handler py_int user_id data).
Proof.
  intros Hadd Hdel. unfold callback_query_handler.
  repeat first
    [ within_step
    | apply within_int_or_raise
    | apply within_catalog
    | by apply within_db_add_to_cart
    | (apply within_connection; [done|]; intros ? ? ? ? [= <- _]; apply Hdel) ].
Qed.

Lemma within_admin_add_start user_id : within R (admin_add_start ADMIN_IDS user_id).
Proof. unfold admin_add_start. repeat within_step. Qed.

Lemma within_text_handler user_id txt :
  (∀ title description price image d,
     R d (sql_insert_product title description price image d).1) →
  within R (text_handler ADMIN_IDS py_int py_strip user_id txt).
Proof.
  intros Hadd. unfold text_handler.
  repeat first [ within_step | by apply within_db_add_product ].
Qed.

Lemma within_admin_list_orders_cmd user_id :
  within R (admin_list_orders_cmd ADMIN_IDS user_id).
Proof. unfold admin_list_orders_cmd. repeat within_step. Qed.

(** A relation every write of the bot respects holds along every run. *)
Lemma within_handle ev w :
  (∀ title description price image d,
     R d (sql_insert_product title description price image d).1) →
  (∀ u p q d, R d (add_to_cart_spec u p q d)) →
  (∀ u p d, R d (sql_delete_cart_row u p d)) →
  (∀ u d, R d (sql_delete_cart u d)) →
  (∀ u items total t d, R d (sql_insert_order u items total t d).1) →
  R (db w) (db (handle ADMIN_IDS py_int py_strip ev w)).
Proof.
  intros Hprod Hadd Hrow Hclear Hord. destruct ev; simpl.
  - apply within_catalog.
  - by apply within_callback_query_handler.
  - apply within_view_cart.
  - by apply within_checkout_callback.
  - apply within_admin_add_start.
  - by apply within_text_handler.
  - apply within_admin_list_orders_cmd.
  - reflexivity.
Qed.

Lemma within_run_events evs : ∀ w,
  (∀ title description price image d,
     R d (sql_insert_product title description price image d).1) →
  (∀ u p q d, R d (add_to_cart_spec u p q d)) →
  (∀ u p d, R d (sql_delete_cart_row u p d)) →
  (∀ u d, R d (sql_delete_cart u d)) →
  (∀ u items total t d, R d (sql_insert_order u items total t d).1) →
  R (db w) (db (run_events ADMIN_IDS py_int py_strip evs w)).
Proof.
  induction evs as [|ev evs IH]; intros w Hprod Hadd Hrow Hclear Hord; simpl.
  - reflexivity.
  - etransitivity; [by apply (within_handle ev w)|]. by apply IH.
Qed.

End HandlersWithin.

Lemma set_db_set_db d1 d2 w : set_db d2 (set_db d1 w) = set_db d2 w.
Proof. reflexivity. Qed.




(** ** ORDER BY ... DESC *)

Section OrderBy.
Context {A : Type} (key : A → Z).

Lemma insert_desc_perm x l : insert_desc key x l ≡ₚ x :: l.
Proof.
  induction l as [|y l IH]; simpl; [done|].
  destruct (key y <=? key x); [done|].
  rewrite IH. apply Permutation_swap.
Qed.

Lemma order_by_desc_perm l : order_by_desc key l ≡ₚ l.
Proof.
  induction l as [|x l IH]; simpl; [done|].
  rewrite insert_desc_perm. by f_equiv.
Qed.

Lemma insert_desc_sorted x l :
  StronglySorted (λ a b, key b ≤ key a) l →
  StronglySorted (λ a b, key b ≤ key a) (insert_desc key x l).
Proof.
  induction l as [|y l IH]; simpl; intros Hs.
  - repeat constructor.
  - apply StronglySorted_cons in Hs as [Hy Hl].
    destruct (key y <=? key x) eqn:Hc.
    + apply Z.leb_le in Hc. apply StronglySorted_cons. split.
      * constructor; [done|].
        eapply Forall_impl; [exact Hy|]. intros z Hz. simpl in *. lia.
      * by apply StronglySorted_cons.
    + apply Z.leb_gt in Hc. apply StronglySorted_cons. split; [|by apply IH].
      rewrite insert_desc_perm. constructor; [lia | done].
Qed.

Lemma order_by_desc_sorted l :
  StronglySorted (λ a b, key b ≤ key a) (order_by_desc key l).
Proof.
  induction l as [|x l IH]; simpl; [constructor | apply insert_desc_sorted, IH].
Qed.




End OrderBy.

(** ** The catalog *)


Lemma StronglySorted_take {A} (R : relation A) n l :
  StronglySorted R l → StronglySorted R (take n l).
Proof. rewrite <- (take_drop n l) at 1. apply StronglySorted_app_1_l. Qed.








(** ** Whose rows an operation touches *)

Lemma cart_lines_bump qty u p v (l : list cart_row) :
  u ≠ v →
  filter (λ c, c_user_id c = v) (bump qty u p <$> l) = filter (λ c, c_user_id c = v) l.
Proof.
  intros Hne. induction l as [|c l IH]; [done|].
  rewrite fmap_cons, !filter_cons, IH. unfold bump.
  destruct (decide (cart_key_is u p c)) as [[Hu _]|_]; simpl; [|done].
  destruct (decide (c_user_id c = v)); [congruence | done].
Qed.

Lemma cart_lines_filter_other (P : cart_row → Prop) `{!∀ c, Decision (P c)}
    v (l : list cart_row) :
  (∀ c, c_user_id c = v → P c) →
  filter (λ c, c_user_id c = v) (filter P l) = filter (λ c, c_user_id c = v) l.
Proof.
  intros HP. induction l as [|c l IH]; [done|].
  rewrite !filter_cons. destruct (decide (P c)) as [Hc|Hc].
  - by rewrite filter_cons, IH.
  - rewrite IH. destruct (decide (c_user_id c = v)) as [Hv|]; [|done].
    by destruct Hc; apply HP.
Qed.

Lemma untouched_add_to_cart u v p q d :
  u ≠ v → untouched_for v d (add_to_cart_spec u p q d).
Proof.
  intros Hne. unfold untouched_for, cart_lines, add_to_cart_spec.
  destruct (filter (cart_key_is u p) (carts d)); simpl.
  - split; [|done]. rewrite filter_app, filter_cons. simpl.
    destruct (decide (u = v)); [done|]. by rewrite app_nil_r.
  - split; [|done]. by apply cart_lines_bump.
Qed.

Lemma untouched_delete_cart_row u v p d :
  u ≠ v → untouched_for v d (sql_delete_cart_row u p d).
Proof.
  intros Hne. split; [|done]. unfold cart_lines; simpl.
  apply cart_lines_filter_other. intros c Hc [Hu _]. congruence.
Qed.

Lemma untouched_delete_cart u v d :
  u ≠ v → untouched_for v d (sql_delete_cart u d).
Proof.
  intros Hne. split; [|done]. unfold cart_lines; simpl.
  apply cart_lines_filter_other. intros c Hc. congruence.
Qed.

(** C10: the cart operations of user [u], that is adding, removing a line
    (a branch of [callback_query_handler], as every other button press),
    clearing and checking out, leave every cart line of another user [v]
    and every product row as they were, whatever their arguments, whether
    the storage works or fails. *)
Theorem cart_operations_touch_own_lines_only py_int u v w :
  u ≠ v →
  (∀ p q, untouched_for v (db w) (db (db_add_to_cart u p q w).2)) ∧
  (∀ data, untouched_for v (db w) (db (callback_query_handler py_int u data w).2)) ∧
  (∀ p, untouched_for v (db w)
          (db (with_connection (λ _ d, Ok (sql_delete_cart_row u p d, tt)) w).2)) ∧
  untouched_for v (db w) (db (db_clear_cart u w).2) ∧
  untouched_for v (db w) (db (checkout_callback u w).2).
Proof.
  intros Hne. split_and!.
  - intros p q. apply (within_db_add_to_cart (untouched_for v)).
    intros d. by apply untouched_add_to_cart.
  - intros data. apply (within_callback_query_handler (untouched_for v)).
    + intros p q d. by apply untouched_add_to_cart.
    + intros p d. by apply untouched_delete_cart_row.
  - intros p. apply (within_connection (untouched_for v)).
    intros t d d' a [= <- _]. by apply untouched_delete_cart_row.
  - apply (within_db_clear_cart (untouched_for v)).
    intros d. by apply untouched_delete_cart.
  - apply (within_checkout_callback (untouched_for v)).
    + intros items total t d. by split.
    + intros d. by apply untouched_delete_cart.
Qed.

Lemma cart_operations_touch_own_lines_only_witness :
  1 ≠ 2 ∧
  cart_lines 1 (db (callback_query_handler int_decimal 1 "remove_1" sample_world).2)
    = [CartRow 1 9 5] ∧
  cart_lines 2 (db (callback_query_handler int_decimal 1 "remove_1" sample_world).2)
    = cart_lines 2 (db sample_world).
Proof.
  assert (H : 1 ≠ 2) by lia.
  split; [exact H|]. split; [reflexivity|].
  destruct (cart_operations_touch_own_lines_only int_decimal 1 2 sample_world H)
    as (_ & Hcb & _).
  exact (proj1 (Hcb "remove_1"%string)).
Defined.

(** ** Access to the admin commands *)

Lemma same_products_add_to_cart u p q d :
  same_products d (add_to_cart_spec u p q d).
Proof.
  unfold same_products, add_to_cart_spec. by destruct (filter _ (carts d)).
Qed.

Lemma text_handler_not_admin ADMIN_IDS py_int py_strip actor txt w :
  actor ∉ ADMIN_IDS →
  text_handler ADMIN_IDS py_int py_strip actor txt w = (Ok ReplyUnknownCommand, w).
Proof.
  intros Hna. unfold text_handler, bind, get_admin_adding.
  by rewrite (bool_decide_eq_false_2 _ Hna), andb_false_r.
Qed.

Lemma handle_not_admin_same_products ADMIN_IDS py_int py_strip actor ev w :
  actor ∉ ADMIN_IDS →
  event_user ev = Some actor →
  same_products (db w) (db (handle ADMIN_IDS py_int py_strip ev w)).
Proof.
  intros Hna Hev. destruct ev; simpl in Hev; try discriminate;
    injection Hev as ->; simpl.
  - apply (within_callback_query_handler same_products).
    + intros p q d. apply same_products_add_to_cart.
    + by intros p d.
  - apply (within_view_cart same_products).
  - apply (within_checkout_callback same_products); by intros.
  - apply (within_admin_add_start same_products).
  - by rewrite text_handler_not_admin.
  - apply (within_admin_list_orders_cmd same_products).
Qed.

(** C9: an actor outside [ADMIN_IDS] who sends [/admin_add] gets the
    admins-only notice and changes nothing; the product data they send as
    text falls through to the fallback reply, also with the [admin_adding]
    flag set; and no update of theirs, alone or in a sequence, adds or
    changes a product row. *)
Theorem non_admin_cannot_add_product ADMIN_IDS py_int py_strip actor w :
  actor ∉ ADMIN_IDS →
  admin_add_start ADMIN_IDS actor w = (Ok ReplyAccessDenied, w) ∧
  (∀ txt, text_handler ADMIN_IDS py_int py_strip actor txt w
          = (Ok ReplyUnknownCommand, w)) ∧
  (∀ evs, Forall (λ ev, event_user ev = Some actor) evs →
          products (db (run_events ADMIN_IDS py_int py_strip evs w))
          = products (db w)).
Proof.
  intros Hna. split_and!.
  - unfold admin_add_start. by destruct (decide (actor ∈ ADMIN_IDS)).
  - intros txt. by apply text_handler_not_admin.
  - intros evs. revert w. induction evs as [|ev evs IH]; intros w Hall; [done|].
    apply Forall_cons in Hall as [Hev Hall]. simpl.
    rewrite (IH _ Hall).
    by apply (handle_not_admin_same_products ADMIN_IDS py_int py_strip actor).
Qed.

Lemma non_admin_cannot_add_product_witness :
  (7 ∉ ({[5]} : gset Z)) ∧
  admin_add_start {[5]} 7 flagged_world = (Ok ReplyAccessDenied, flagged_world) ∧
  text_handler {[5]} int_decimal (λ s, s) 7 "Widget|cheap|1" flagged_world
    = (Ok ReplyUnknownCommand, flagged_world).
Proof.
  assert (H : 7 ∉ ({[5]} : gset Z)) by (by vm_compute).
  split; [exact H|].
  destruct (non_admin_cannot_add_product {[5]} int_decimal (λ s, s) 7 flagged_world H)
    as (Hstart & Htext & _).
  split; [exact Hstart | exact (Htext _)].
Defined.

(** ** Listing the orders *)

Lemma db_list_orders_reliable w :
  faults w = [] → db_list_orders w = (Ok (sql_select_orders (db w)), w).
Proof.
  intros Hf. unfold db_list_orders.
  rewrite with_connection_reliable by done. by rewrite set_db_same.
Qed.

(** C8: [db_list_orders] sorts by [created_at], a timestamp in whole
    seconds, and nothing else.  Two users check out within the same second:
    both checkouts succeed, and the order created last (id 2) is listed
    second, behind the older order of the same second. *)
Lemma newest_order_not_listed_first :
  let w1 := (checkout_callback 1 sample_world).2 in
  let w2 := (checkout_callback 2 w1).2 in
  (checkout_callback 1 sample_world).1 = Ok (ReplyOrderCreated 1 1000) ∧
  (checkout_callback 2 w1).1 = Ok (ReplyOrderCreated 2 300) ∧
  db_list_orders w2 =
    (Ok [Order 1 1 [OrderItem 1 "Widget" 2 500] 1000 "new" 100;
         Order 2 2 [OrderItem 2 "Gadget" 1 300] 300 "new" 100], w2).
Proof. vm_compute. split_and!; reflexivity. Qed.



(** ** Validation *)

Lemma db_add_product_outcome title description price image w :
  let r := db_add_product title description price image w in
  let ins := sql_insert_product title description price image (db w) in
  now r.2 = now w ∧ user_data r.2 = user_data w ∧
  ((r.1 = Ok ins.2 ∧ db r.2 = ins.1) ∨
   (r.1 = Raise OperationalError ∧ db r.2 = db w)).
Proof.
  apply (exec_outcome (λ _ d, sql_insert_product title description price image d) w).
Qed.




(** * Further properties of the code *)

(** ** Products: insert and lookup *)



Lemma sql_select_product_app pid d k p :
  sql_select_product pid d = Some p →
  head (filter (λ q, p_id q = pid) (products d ++ k)) = Some p.
Proof.
  unfold sql_select_product. rewrite filter_app.
  destruct (filter _ (products d)); [done|]. by intros [= ->].
Qed.





(** No handler rewrites or deletes a product row. *)
Lemma products_grow_run_events ADMIN_IDS py_int py_strip evs w :
  products_grow (db w) (db (run_events ADMIN_IDS py_int py_strip evs w)).
Proof.
  apply (within_run_events products_grow).
  - intros title description price image d. by apply prefix_app_r.
  - intros u p q d. unfold products_grow, add_to_cart_spec.
    by destruct (filter _ (carts d)).
  - intros u p d. unfold products_grow. reflexivity.
  - intros u d. unfold products_grow. reflexivity.
  - intros u items total t d. unfold products_grow. reflexivity.
Qed.

(** X2: products are never changed or destroyed.  After any sequence of
    updates the rows of [products] that were there are still there, in
    place, and an id that resolved to a product resolves to the same
    product. *)
Theorem products_are_permanent ADMIN_IDS py_int py_strip evs w :
  let w' := run_events ADMIN_IDS py_int py_strip evs w in
  products (db w) `prefix_of` products (db w') ∧
  ∀ pid p, sql_select_product pid (db w) = Some p →
           sql_select_product pid (db w') = Some p.
Proof.
  intros w'.
  pose proof (products_grow_run_events ADMIN_IDS py_int py_strip evs w) as Hg.
  split; [exact Hg|].
  intros pid p Hp. destruct Hg as [k Hk]. unfold sql_select_product.
  fold w' in Hk. rewrite Hk. by apply sql_select_product_app.
Qed.

(** ** Orders: append-only, written by checkout alone *)

Lemma orders_grow_run_events ADMIN_IDS py_int py_strip evs w :
  orders_grow (db w) (db (run_events ADMIN_IDS py_int py_strip evs w)).
Proof.
  apply (within_run_events orders_grow).
  - intros title description price image d. unfold orders_grow. reflexivity.
  - intros u p q d. unfold orders_grow, add_to_cart_spec.
    by destruct (filter _ (carts d)).
  - intros u p d. unfold orders_grow. reflexivity.
  - intros u d. unfold orders_grow. reflexivity.
  - intros u items total t d. by apply prefix_app_r.
Qed.

Lemma orders_ascending_insert u items total t d :
  orders_ascending d → orders_ascending (sql_insert_order u items total t d).1.
Proof.
  unfold orders_ascending; simpl. intros Hs.
  apply StronglySorted_app_2; [|done|repeat constructor].
  intros x y Hx ->%list_elem_of_singleton. simpl.
  apply next_rowid_above. by apply list_elem_of_fmap_2.
Qed.

Lemma orders_ascending_run_events ADMIN_IDS py_int py_strip evs w :
  orders_ascending (db w) →
  orders_ascending (db (run_events ADMIN_IDS py_int py_strip evs w)).
Proof.
  apply (within_run_events (keeps orders_ascending)).
  - intros title description price image d H. exact H.
  - intros u p q d H. unfold orders_ascending, add_to_cart_spec in *.
    by destruct (filter _ (carts d)).
  - intros u p d H. exact H.
  - intros u d H. exact H.
  - intros u items total t d H. by apply orders_ascending_insert.
Qed.

Lemma StronglySorted_lt_NoDup {A} (key : A → Z) (l : list A) :
  StronglySorted (λ a b, key a < key b) l → NoDup (key <$> l).
Proof.
  induction 1 as [|x l _ IH Hx]; [constructor|].
  rewrite fmap_cons. constructor; [|done].
  intros (y & Hk & Hy)%list_elem_of_fmap.
  rewrite Forall_forall in Hx. specialize (Hx y Hy). lia.
Qed.

(** X3: orders are never changed or destroyed.  After any sequence of
    updates the rows of [orders] that were there are still there, in place;
    the order ids keep ascending along the table, so no id is handed out
    twice. *)
Theorem orders_are_permanent ADMIN_IDS py_int py_strip evs w :
  let w' := run_events ADMIN_IDS py_int py_strip evs w in
  orders (db w) `prefix_of` orders (db w') ∧
  (orders_ascending (db w) →
     orders_ascending (db w') ∧ NoDup (o_id <$> orders (db w'))).
Proof.
  intros w'. split; [apply orders_grow_run_events|].
  intros Hasc.
  pose proof (orders_ascending_run_events ADMIN_IDS py_int py_strip evs w Hasc) as H.
  split; [exact H|]. by apply (StronglySorted_lt_NoDup o_id).
Qed.

Lemma orders_are_permanent_witness :
  orders_ascending (db sample_world) ∧
  NoDup (o_id <$> orders (db (run_events ∅ int_decimal (λ s, s)
                                [EvCheckout 1; EvCheckout 2; EvCheckout 1]
                                sample_world))).
Proof.
  assert (H : orders_ascending (db sample_world)) by constructor.
  split; [exact H|].
  exact (proj2 (proj2 (orders_are_permanent ∅ int_decimal (λ s, s)
                         [EvCheckout 1; EvCheckout 2; EvCheckout 1] sample_world) H)).
Defined.




(** ** The admin dialogue *)

Section AdminDialogue.
Variable ADMIN_IDS : gset Z.
Variable py_int : string → option Z.
Variable py_strip : string → string.

Lemma text_handler_guard_off u txt w :
  ¬ (user_data w !! u = Some true ∧ u ∈ ADMIN_IDS) →
  text_handler ADMIN_IDS py_int py_strip u txt w = (Ok ReplyUnknownCommand, w).
Proof.
  intros Hg. unfold text_handler, bind, get_admin_adding.
  destruct (bool_decide (user_data w !! u = Some true)) eqn:Hflag;
    destruct (bool_decide (u ∈ ADMIN_IDS)) eqn:Hadm; simpl; try done.
  apply bool_decide_eq_true in Hflag, Hadm. by destruct Hg.
Qed.

Lemma text_handler_guard_on u txt w :
  user_data w !! u = Some true → u ∈ ADMIN_IDS →
  text_handler ADMIN_IDS py_int py_strip u txt w =
    match py_strip <$> str_split "|" txt with
    | title :: desc :: price :: rest =>
        match py_int price with
        | None => (Ok ReplyPriceNotInteger, w)
        | Some price_i =>
            bind (db_add_product title (Some desc) price_i (head rest))
                 (λ pid, bind (set_admin_adding u false)
                              (λ _, ret (ReplyProductAdded pid))) w
        end
    | _ => (Ok ReplyBadFormat, w)
    end.
Proof.
  intros Hflag Hadm. unfold text_handler, bind at 1, get_admin_adding.
  rewrite (bool_decide_eq_true_2 _ Hflag), (bool_decide_eq_true_2 _ Hadm). simpl.
  destruct (py_strip <$> str_split "|" txt) as [|title [|desc [|price rest]]]; try done.
  by destruct (py_int price).
Qed.

(** X5: a product is written by the text of an admin who started the
    dialogue, and by nothing else.  When a handler leaves [products]
    different, the update was a text of a user in [ADMIN_IDS] whose
    [admin_adding] flag was set, with at least three fields of which the
    third is an integer, and the difference is one appended product made of
    these fields. *)
Theorem products_change_only_by_admin_text ev w :
  products (db (handle ADMIN_IDS py_int py_strip ev w)) ≠ products (db w) →
  ∃ u txt title desc price rest n,
    ev = EvText u txt ∧ u ∈ ADMIN_IDS ∧ user_data w !! u = Some true ∧
    py_strip <$> str_split "|" txt = title :: desc :: price :: rest ∧
    py_int price = Some n ∧
    products (db (handle ADMIN_IDS py_int py_strip ev w)) =
      products (db w) ++
      [Product (next_rowid (products_seq (db w)) (p_id <$> products (db w)))
               title (Some desc) n (head rest)].
Proof.
  intros Hchg. destruct ev as [args|u data|u|u|u|u txt|u|clock schedule];
    simpl in Hchg.
  - destruct Hchg. apply (within_catalog same_products).
  - destruct Hchg. apply (within_callback_query_handler same_products).
    + intros p q d. apply same_products_add_to_cart.
    + by intros p d.
  - destruct Hchg. apply (within_view_cart same_products).
  - destruct Hchg. apply (within_checkout_callback same_products); by intros.
  - destruct Hchg. apply (within_admin_add_start same_products).
  - destruct (decide (user_data w !! u = Some true ∧ u ∈ ADMIN_IDS)) as [[Hflag Hadm]|Hg];
      [|by rewrite text_handler_guard_off in Hchg].
    simpl. rewrite text_handler_guard_on in Hchg |- * by done.
    destruct (py_strip <$> str_split "|" txt)
      as [|title [|desc [|price rest]]] eqn:Hparts; try done.
    destruct (py_int price) as [n|] eqn:Hint; [|done].
    exists u, txt, title, desc, price, rest, n. split_and!; try done.
    revert Hchg. unfold bind.
    destruct (db_add_product_outcome title (Some desc) n (head rest) w)
      as (_ & _ & [[Hr Hd]|[Hr Hd]]);
      destruct (db_add_product title (Some desc) n (head rest) w) as [r w1];
      simpl in Hr, Hd; subst r; simpl; rewrite Hd; done.
  - destruct Hchg. apply (within_admin_list_orders_cmd same_products).
  - done.
Qed.



End AdminDialogue.

Lemma products_change_only_by_admin_text_witness :
  products (db (handle {[5]} int_decimal strip_ascii
                  (EvText 5 "Lamp | warm light | 900") admin_world))
    ≠ products (db admin_world) ∧
  products (db (handle {[5]} int_decimal strip_ascii
                  (EvText 5 "Lamp | warm light | 900") admin_world))
    = products sample_db ++ [Product 3 "Lamp" (Some "warm light") 900 None].
Proof.
  assert (H : products (db (handle {[5]} int_decimal strip_ascii
                              (EvText 5 "Lamp | warm light | 900") admin_world))
              ≠ products (db admin_world)) by (vm_compute; discriminate).
  split; [exact H|].
  destruct (products_change_only_by_admin_text {[5]} int_decimal strip_ascii _ _ H)
    as (u & txt & title & desc & price & rest & n & Hev & _ & _ & Hparts & Hint & Hprod).
  injection Hev as <- <-. vm_compute in Hparts. injection Hparts as <- <- <- <-.
  vm_compute in Hint. injection Hint as <-. exact Hprod.
Defined.



(** ** Removing and clearing cart lines *)

Lemma filter_all {A} (P : A → Prop) `{!∀ x, Decision (P x)} (l : list A) :
  (∀ x, x ∈ l → P x) → filter P l = l.
Proof.
  induction l as [|x l IH]; [done|]. intros HP.
  rewrite filter_cons_True by (apply HP; left).
  f_equal. apply IH. intros y Hy. apply HP. by right.
Qed.


Lemma set_carts_same d : set_carts (carts d) d = d.
Proof. by destruct d. Qed.

Lemma sql_delete_cart_row_absent u p d :
  filter (cart_key_is u p) (carts d) = [] → sql_delete_cart_row u p d = d.
Proof.
  intros Hnone. unfold sql_delete_cart_row.
  rewrite filter_all; [apply set_carts_same|].
  intros c Hc Hk. eapply filter_nil_not_elem_of; eauto.
Qed.



Lemma remove_button_run py_int u s pid w :
  py_int s = Some pid →
  callback_query_handler py_int u ("remove_" ++ s) w =
    bind (with_connection (λ _ d, Ok (sql_delete_cart_row u pid d, tt)))
         (λ _, ret ReplyRemoved) w.
Proof.
  intros Hint. unfold callback_query_handler.
  change (String.prefix "view_" ("remove_" ++ s)) with false.
  change (String.prefix "add_" ("remove_" ++ s)) with false.
  change (String.prefix "remove_" ("remove_" ++ s)) with (String.prefix "" s).
  assert (String.prefix "" s = true) as -> by (by destruct s).
  change (str_split1 "_" ("remove_" ++ s)) with ["remove"; s]%string.
  destruct (decide _) as [Heq|_]; [by cbv in Heq|]. cbn [lookup list_lookup].
  unfold bind at 1, int_or_raise. by rewrite Hint.
Qed.



Lemma filter_not_key_bump qty u p (l : list cart_row) :
  filter (λ c, ¬ cart_key_is u p c) (bump qty u p <$> l)
  = filter (λ c, ¬ cart_key_is u p c) l.
Proof.
  induction l as [|c l IH]; [done|].
  rewrite fmap_cons, !filter_cons, IH.
  destruct (decide (¬ cart_key_is u p (bump qty u p c))) as [Hb|Hb];
    destruct (decide (¬ cart_key_is u p c)) as [Hc|Hc];
    rewrite bump_key_is in Hb; try done.
  unfold bump. by destruct (decide (cart_key_is u p c)).
Qed.

Lemma sql_delete_cart_row_after_add u p q d :
  sql_delete_cart_row u p (add_to_cart_spec u p q d) = sql_delete_cart_row u p d.
Proof.
  unfold sql_delete_cart_row, add_to_cart_spec.
  destruct (filter (cart_key_is u p) (carts d)) as [|c l] eqn:Hf.
  - simpl. rewrite filter_app, filter_cons. simpl.
    destruct (decide (¬ cart_key_is u p (CartRow u p q))) as [Hn|_].
    + by destruct Hn.
    + by rewrite app_nil_r.
  - rewrite sql_update_cart_qty_bump. simpl. by rewrite filter_not_key_bump.
Qed.

(** X9: adding a product and then pressing its remove button leaves what
    pressing the remove button alone would have left, whatever the quantity
    added; when the pair had no line before, that is the world as it was
    before the addition. *)
Theorem add_then_remove_leaves_no_trace py_int u s pid qty w :
  py_int s = Some pid →
  faults w = [] →
  let added := (db_add_to_cart u pid qty w).2 in
  (callback_query_handler py_int u ("remove_" ++ s) added).2
    = (callback_query_handler py_int u ("remove_" ++ s) w).2 ∧
  (filter (cart_key_is u pid) (carts (db w)) = [] →
     (callback_query_handler py_int u ("remove_" ++ s) added).2 = w).
Proof.
  intros Hint Hf added. subst added.
  rewrite db_add_to_cart_reliable by done. cbn [snd].
  rewrite !(remove_button_run _ _ _ _ _ Hint). unfold bind.
  rewrite !with_connection_reliable by done. cbn [fst snd ret db set_db].
  rewrite sql_delete_cart_row_after_add, set_db_set_db. split; [reflexivity|].
  intros Hnone. rewrite sql_delete_cart_row_absent by done. apply set_db_same.
Qed.

Lemma add_then_remove_leaves_no_trace_witness :
  int_decimal "2" = Some 2 ∧ faults sample_world = [] ∧
  filter (cart_key_is 1 2) (carts (db sample_world)) = [] ∧
  (callback_query_handler int_decimal 1 "remove_2"
     (db_add_to_cart 1 2 5 sample_world).2).2 = sample_world.
Proof.
  assert (H : int_decimal "2" = Some 2) by reflexivity.
  assert (Hn : filter (cart_key_is 1 2) (carts (db sample_world)) = []) by reflexivity.
  split; [exact H|]. split; [reflexivity|]. split; [exact Hn|].
  exact (proj2 (add_then_remove_leaves_no_trace int_decimal 1 "2" 2 5
                  sample_world H eq_refl) Hn).
Defined.

Lemma sql_delete_cart_no_lines u d :
  cart_lines u d = [] → sql_delete_cart u d = d.
Proof.
  intros Hnone. unfold sql_delete_cart.
  rewrite filter_all; [apply set_carts_same|].
  intros c Hc Hu. eapply (filter_nil_not_elem_of _ _ c Hnone); done.
Qed.

(** X10: clearing a cart removes every line of the user; clearing again,
    or clearing a cart without lines, changes nothing; and a cart that was
    cleared reads as empty. *)
Theorem db_clear_cart_idempotent u w :
  faults w = [] →
  let r := db_clear_cart u w in
  r.1 = Ok tt ∧
  cart_lines u (db r.2) = [] ∧
  db_clear_cart u r.2 = (Ok tt, r.2) ∧
  db_get_cart u r.2 = (Ok ([], 0), r.2) ∧
  (cart_lines u (db w) = [] → r.2 = w).
Proof.
  intros Hf r. subst r. unfold db_clear_cart.
  rewrite with_connection_reliable by done. cbn [fst snd].
  split_and!; try done.
  - apply cart_lines_delete_cart.
  - rewrite with_connection_reliable by done. cbn [db set_db].
    by rewrite (sql_delete_cart_no_lines u _ (cart_lines_delete_cart u (db w))).
  - rewrite db_get_cart_reliable by done.
    by rewrite cart_listing_no_lines by apply cart_lines_delete_cart.
  - intros Hnone. rewrite sql_delete_cart_no_lines by done. apply set_db_same.
Qed.

Lemma db_clear_cart_idempotent_witness :
  faults sample_world = [] ∧
  carts (db (db_clear_cart 1 sample_world).2) = [CartRow 2 2 1; CartRow 4 9 1] ∧
  db_clear_cart 1 (db_clear_cart 1 sample_world).2
    = (Ok tt, (db_clear_cart 1 sample_world).2).
Proof.
  split; [reflexivity|]. split; [reflexivity|].
  exact (proj1 (proj2 (proj2 (db_clear_cart_idempotent 1 sample_world eq_refl)))).
Defined.

(** ** Checkout, once more *)






(** X13: the retry after a failed cart clearing.  When a checkout raises
    although its order row is already written, the cart lines are still
    there; a second checkout, with the storage working again, stores a
    second order of the same user with the same items and the same total
    under a larger id. *)
Theorem checkout_retry_duplicates_order u w e :
  (checkout_callback u w).1 = Raise e →
  orders (db (checkout_callback u w).2) ≠ orders (db w) →
  faults (checkout_callback u w).2 = [] →
  ∃ o1 o2 w2,
    orders (db (checkout_callback u w).2) = orders (db w) ++ [o1] ∧
    carts (db (checkout_callback u w).2) = carts (db w) ∧
    checkout_callback u (checkout_callback u w).2
      = (Ok (ReplyOrderCreated (o_id o2) (o_total o2)), w2) ∧
    orders (db w2) = orders (db w) ++ [o1; o2] ∧
    o_user_id o1 = u ∧ o_user_id o2 = u ∧
    o_items o2 = o_items o1 ∧ o_total o2 = o_total o1 ∧ o_id o1 < o_id o2.
Proof.
  intros Hr Hchg Hf.
  destruct (checkout_callback_outcome u w) as (Hn & _ & Hcases).
  destruct (checkout_callback u w) as [r w1]; simpl in *. subst r.
  destruct Hcases as [[_ Hd]|[(_ & [=] & _)|[(Hne & _ & Hd)|(_ & [=] & _)]]];
    [by rewrite Hd in Hchg|].
  assert (Hl : cart_listing u (db w1) = cart_listing u (db w)) by (by rewrite Hd).
  assert (Hne1 : cart_listing u (db w1) ≠ []) by (by rewrite Hl).
  rewrite (checkout_callback_reliable u w1 Hf Hne1).
  rewrite Hl, Hn, Hd. cbn [sql_insert_order fst snd orders orders_seq].
  set (items := payload_item <$> cart_listing u (db w)).
  set (total := cart_total (cart_listing u (db w))).
  set (o1 := Order (next_rowid (orders_seq (db w)) (o_id <$> orders (db w)))
                   u items total "new" (now w)).
  exists o1, (Order (next_rowid (o_id o1) (o_id <$> (orders (db w) ++ [o1])))
                    u items total "new" (now w)).
  eexists. split_and!; try reflexivity.
  - simpl. by rewrite <- app_assoc.
  - simpl. apply next_rowid_above. rewrite fmap_app. simpl.
    apply elem_of_app. right. by left.
Qed.

Lemma checkout_retry_duplicates_order_witness :
  (checkout_callback 2 failing_world).1 = Raise OperationalError ∧
  orders (db (checkout_callback 2 failing_world).2) ≠ orders (db failing_world) ∧
  faults (checkout_callback 2 failing_world).2 = [] ∧
  orders (db (checkout_callback 2 (checkout_callback 2 failing_world).2).2)
    = [Order 1 2 [OrderItem 2 "Gadget" 1 300] 300 "new" 100;
       Order 2 2 [OrderItem 2 "Gadget" 1 300] 300 "new" 100].
Proof.
  assert (H1 : (checkout_callback 2 failing_world).1 = Raise OperationalError)
    by reflexivity.
  assert (H2 : orders (db (checkout_callback 2 failing_world).2)
               ≠ orders (db failing_world)) by (vm_compute; discriminate).
  assert (H3 : faults (checkout_callback 2 failing_world).2 = []) by reflexivity.
  split; [exact H1|]. split; [exact H2|]. split; [exact H3|].
  destruct (checkout_retry_duplicates_order 2 failing_world _ H1 H2 H3)
    as (o1 & o2 & w2 & _ & _ & Hrun & _).
  rewrite Hrun. vm_compute in Hrun. injection Hrun as _ _ <-. reflexivity.
Defined.

(** ** Button presses that fail *)







Lemma ret_not_raise {A} (a : A) w e : (ret a w).1 ≠ Raise e.
Proof. done. Qed.



(** ** The connections of a cart read *)







(** ** Quantities that cancel *)




(** ** Pages of the catalog *)







(** ** What an addition does to the cart that is read *)












(** ** The order list of the admin *)

Lemma order_by_desc_nil_iff {A} (key : A → Z) (l : list A) :
  order_by_desc key l = [] ↔ l = [].
Proof.
  split; [|by intros ->]. intros Hnil.
  apply Permutation_nil_r. rewrite <- Hnil. symmetry. apply order_by_desc_perm.
Qed.

(** X20: [/admin_list_orders].  A user outside [ADMIN_IDS] gets the
    admins-only notice and no connection is opened.  An admin, with a
    working storage, gets the no-orders notice exactly when [orders] is
    empty, and otherwise at most 20 orders: the first 20 of
    [db_list_orders], each of them a stored order, by non-increasing
    timestamp. *)
Theorem admin_list_orders_shows_twenty ADMIN_IDS u w :
  (u ∉ ADMIN_IDS → admin_list_orders_cmd ADMIN_IDS u w = (Ok ReplyAccessDenied, w)) ∧
  (u ∈ ADMIN_IDS → faults w = [] →
     (orders (db w) = [] →
        admin_list_orders_cmd ADMIN_IDS u w = (Ok ReplyNoOrders, w)) ∧
     (orders (db w) ≠ [] →
        ∃ rows,
          admin_list_orders_cmd ADMIN_IDS u w = (Ok (ReplyOrders rows), w) ∧
          rows = take 20 (sql_select_orders (db w)) ∧
          (0 < length rows ≤ 20)%nat ∧
          (∀ o, o ∈ rows → o ∈ orders (db w)) ∧
          StronglySorted (λ a b, o_created_at b ≤ o_created_at a) rows)).
Proof.
  unfold admin_list_orders_cmd. split.
  - intros Hna. by destruct (decide (u ∈ ADMIN_IDS)).
  - intros Hadm Hf. destruct (decide (u ∈ ADMIN_IDS)); [|done].
    unfold bind. rewrite db_list_orders_reliable by done. split.
    + intros Hnil. unfold sql_select_orders. by rewrite Hnil.
    + intros Hne.
      destruct (sql_select_orders (db w)) as [|o os] eqn:Hsel.
      { by apply order_by_desc_nil_iff in Hsel. }
      exists (take 20 (o :: os)). split_and!; try done.
      * simpl. lia.
      * rewrite length_take. lia.
      * intros x Hx. rewrite <- (order_by_desc_perm o_created_at (orders (db w))).
        fold (sql_select_orders (db w)). rewrite Hsel.
        exact (subseteq_take 20 (o :: os) x Hx).
      * apply StronglySorted_take. rewrite <- Hsel. apply order_by_desc_sorted.
Qed.

Lemma admin_list_orders_shows_twenty_witness :
  (5 ∈ ({[5]} : gset Z)) ∧ (7 ∉ ({[5]} : gset Z)) ∧ faults sample_world = [] ∧
  admin_list_orders_cmd {[5]} 7 sample_world = (Ok ReplyAccessDenied, sample_world) ∧
  admin_list_orders_cmd {[5]} 5 sample_world = (Ok ReplyNoOrders, sample_world).
Proof.
  assert (H5 : 5 ∈ ({[5]} : gset Z)) by (by apply elem_of_singleton).
  assert (H7 : 7 ∉ ({[5]} : gset Z)) by (by vm_compute).
  split; [exact H5|]. split; [exact H7|]. split; [reflexivity|]. split.
  - exact (proj1 (admin_list_orders_shows_twenty {[5]} 7 sample_world) H7).
  - exact (proj1 (proj2 (admin_list_orders_shows_twenty {[5]} 5 sample_world)
                    H5 eq_refl) eq_refl).
Defined.






(** X23: [callback_query_handler] has no branch for the order button.  A
    payload [checkout_<anything>] is answered with nothing and the world is
    left as it was: no order is written and no cart is cleared. *)
Theorem callback_query_handler_ignores_checkout py_int u s w :
  callback_query_handler py_int u ("checkout_" ++ s) w = (Ok ReplyNone, w).
Proof.
  unfold callback_query_handler.
  change (String.prefix "view_" ("checkout_" ++ s)) with false.
  change (String.prefix "add_" ("checkout_" ++ s)) with false.
  change (String.prefix "remove_" ("checkout_" ++ s)) with false.
  destruct (decide _) as [Heq|_]; [by cbv in Heq|]. done.
Qed.











